(** * Subtree representation of the incremental parser (lib/src/subtree.h)

    A shallow embedding of the value types and inline accessors declared in
    [subtree.h], followed by the properties the specification states about
    them.

    Conventions.
    - C integers are [Z]; a field of width [w] holds a value in
      [0 <= z < 2^w], and a store into a narrower field is written with
      [wrap].  Every accessor of the header only widens (or keeps) the type
      of the field it reads, so a read is the field itself.
    - One-bit [bool] bit-fields are [bool].
    - A [Subtree] is the union of the inline record and a pointer to an
      immutable heap record; the [is_inline] bit that discriminates the two
      is the constructor of the inductive type, and a pointer is represented
      by the record it points to.  [NULL_SUBTREE] is outside the domain of
      every accessor and is not represented. *)

From Stdlib Require Import ZArith List Bool Lia.
From Stdlib Require Import Strings.Byte.
Import ListNotations.

Local Open Scope Z_scope.

(** ** Fixed-width integers *)

Definition wrap (w z : Z) : Z := z mod 2 ^ w.

Definition in_range (w z : Z) : Prop := 0 <= z < 2 ^ w.

Definition in_rangeb (w z : Z) : bool := (0 <=? z) && (z <? 2 ^ w).

Definition USHRT_MAX : Z := 65535.
Definition TS_TREE_STATE_NONE : Z := USHRT_MAX.

(** ** Length (length.h, api.h)

    [Length] is declared in [length.h]; the header under study builds it
    positionally as [{bytes, {row, column}}] and reads its [bytes] member. *)

Record TSPoint : Type := Build_TSPoint { row : Z; column : Z }.

Record Length : Type := Build_Length { bytes : Z; extent : TSPoint }.

Definition Length_wf (l : Length) : Prop :=
  in_range 32 (bytes l) /\ in_range 32 (row (extent l))
  /\ in_range 32 (column (extent l)).

(** ** The serialized state of an external scanner

    [union { char *long_data; char short_data[24]; }; uint32_t length;]
    The active member of the union is the constructor. *)

Definition short_data_capacity : Z := 24.

Inductive ScannerStorage : Type :=
| short_data (array : list byte)
| long_data (block : list byte).

Record ExternalScannerState : Type := Build_ExternalScannerState {
  storage : ScannerStorage;
  length : Z
}.

(** ** SubtreeInlineData

    The compact representation.  [is_inline] is the constructor of
    [Subtree]; the [unused] bit of the big-endian layouts carries no
    information. *)

Module Inline.
Record SubtreeInlineData : Type := Build {
  (* SUBTREE_BITS *)
  visible : bool;
  named : bool;
  extra : bool;
  has_changes : bool;
  is_missing : bool;
  is_keyword : bool;
  symbol : Z;            (* uint8_t *)
  parse_state : Z;       (* uint16_t *)
  (* SUBTREE_SIZE *)
  padding_columns : Z;   (* uint8_t *)
  padding_rows : Z;      (* uint8_t : 4 *)
  lookahead_bytes : Z;   (* uint8_t : 4 *)
  padding_bytes : Z;     (* uint8_t *)
  size_bytes : Z         (* uint8_t *)
}.

Definition wf (d : SubtreeInlineData) : Prop :=
  in_range 8 (symbol d) /\ in_range 16 (parse_state d)
  /\ in_range 8 (padding_columns d) /\ in_range 4 (padding_rows d)
  /\ in_range 4 (lookahead_bytes d) /\ in_range 8 (padding_bytes d)
  /\ in_range 8 (size_bytes d).

Definition set_extra (d : SubtreeInlineData) (is_extra : bool) :=
  Build (visible d) (named d) is_extra (has_changes d) (is_missing d)
        (is_keyword d) (symbol d) (parse_state d) (padding_columns d)
        (padding_rows d) (lookahead_bytes d) (padding_bytes d)
        (size_bytes d).

(** Stores of a padding and a size into the narrow members, with the
    conversion C applies on assignment to an unsigned member. *)
Definition set_lengths (d : SubtreeInlineData) (padding size : Length) :=
  Build (visible d) (named d) (extra d) (has_changes d) (is_missing d)
        (is_keyword d) (symbol d) (parse_state d)
        (wrap 8 (column (extent padding)))
        (wrap 4 (row (extent padding)))
        (lookahead_bytes d)
        (wrap 8 (bytes padding))
        (wrap 8 (bytes size)).
End Inline.

Abbreviation SubtreeInlineData := Inline.SubtreeInlineData.

(** ** SubtreeHeapData

    The members of the anonymous union are kept side by side: the
    non-terminal struct ([child_count > 0]), the external scanner state
    ([child_count == 0 && has_external_tokens]) and the lookahead character
    of an error leaf.  The children of the node live in front of the record
    and are not part of it. *)

Module FirstLeaf.
Record t : Type := Build { symbol : Z; parse_state : Z }.
End FirstLeaf.

Module Heap.
Record SubtreeHeapData : Type := Build {
  ref_count : Z;         (* volatile uint32_t *)
  padding : Length;
  size : Length;
  lookahead_bytes : Z;   (* uint32_t *)
  error_cost : Z;        (* uint32_t *)
  child_count : Z;       (* uint32_t *)
  symbol : Z;            (* TSSymbol, uint16_t *)
  parse_state : Z;       (* TSStateId, uint16_t *)
  visible : bool;
  named : bool;
  extra : bool;
  fragile_left : bool;
  fragile_right : bool;
  has_changes : bool;
  has_external_tokens : bool;
  has_external_scanner_state_change : bool;
  depends_on_column : bool;
  is_missing : bool;
  is_keyword : bool;
  (* union, first member: non-terminal subtrees *)
  visible_child_count : Z;   (* uint32_t *)
  named_child_count : Z;     (* uint32_t *)
  node_count : Z;            (* uint32_t *)
  dynamic_precedence : Z;    (* int32_t *)
  repeat_depth : Z;          (* uint16_t *)
  production_id : Z;         (* uint16_t *)
  first_leaf : FirstLeaf.t;
  (* union, second member: external terminal subtrees *)
  external_scanner_state : ExternalScannerState;
  (* union, third member: error terminal subtrees *)
  lookahead_char : Z         (* int32_t *)
}.

Definition set_extra (h : SubtreeHeapData) (is_extra : bool) :=
  Build (ref_count h) (padding h) (size h) (lookahead_bytes h)
        (error_cost h) (child_count h) (symbol h) (parse_state h)
        (visible h) (named h) is_extra (fragile_left h) (fragile_right h)
        (has_changes h) (has_external_tokens h)
        (has_external_scanner_state_change h) (depends_on_column h)
        (is_missing h) (is_keyword h) (visible_child_count h)
        (named_child_count h) (node_count h) (dynamic_precedence h)
        (repeat_depth h) (production_id h) (first_leaf h)
        (external_scanner_state h) (lookahead_char h).

Definition set_lengths (h : SubtreeHeapData) (p s : Length) :=
  Build (ref_count h) p s (lookahead_bytes h)
        (error_cost h) (child_count h) (symbol h) (parse_state h)
        (visible h) (named h) (extra h) (fragile_left h) (fragile_right h)
        (has_changes h) (has_external_tokens h)
        (has_external_scanner_state_change h) (depends_on_column h)
        (is_missing h) (is_keyword h) (visible_child_count h)
        (named_child_count h) (node_count h) (dynamic_precedence h)
        (repeat_depth h) (production_id h) (first_leaf h)
        (external_scanner_state h) (lookahead_char h).

Definition set_counts (h : SubtreeHeapData) (children nodes : Z) :=
  Build (ref_count h) (padding h) (size h) (lookahead_bytes h)
        (error_cost h) children (symbol h) (parse_state h)
        (visible h) (named h) (extra h) (fragile_left h) (fragile_right h)
        (has_changes h) (has_external_tokens h)
        (has_external_scanner_state_change h) (depends_on_column h)
        (is_missing h) (is_keyword h) (visible_child_count h)
        (named_child_count h) nodes (dynamic_precedence h)
        (repeat_depth h) (production_id h) (first_leaf h)
        (external_scanner_state h) (lookahead_char h).
End Heap.

Abbreviation SubtreeHeapData := Heap.SubtreeHeapData.

(** ** Subtree and MutableSubtree *)

Inductive Subtree : Type :=
| SubtreeData (data : SubtreeInlineData)
| SubtreePtr (ptr : SubtreeHeapData).

Inductive MutableSubtree : Type :=
| MutableSubtreeData (data : SubtreeInlineData)
| MutableSubtreePtr (ptr : SubtreeHeapData).

Definition is_inline (self : Subtree) : bool :=
  match self with SubtreeData _ => true | SubtreePtr _ => false end.

(** ** Accessors *)

(** [#define SUBTREE_GET(self, name)
      (self.data.is_inline ? self.data.name : self.ptr->name)] *)
Definition SUBTREE_GET {A : Type} (self : Subtree)
    (data_name : SubtreeInlineData -> A) (ptr_name : SubtreeHeapData -> A)
    : A :=
  match self with
  | SubtreeData data => data_name data
  | SubtreePtr ptr => ptr_name ptr
  end.

Definition ts_subtree_symbol (self : Subtree) : Z :=
  SUBTREE_GET self Inline.symbol Heap.symbol.
Definition ts_subtree_visible (self : Subtree) : bool :=
  SUBTREE_GET self Inline.visible Heap.visible.
Definition ts_subtree_named (self : Subtree) : bool :=
  SUBTREE_GET self Inline.named Heap.named.
Definition ts_subtree_extra (self : Subtree) : bool :=
  SUBTREE_GET self Inline.extra Heap.extra.
Definition ts_subtree_has_changes (self : Subtree) : bool :=
  SUBTREE_GET self Inline.has_changes Heap.has_changes.
Definition ts_subtree_missing (self : Subtree) : bool :=
  SUBTREE_GET self Inline.is_missing Heap.is_missing.
Definition ts_subtree_is_keyword (self : Subtree) : bool :=
  SUBTREE_GET self Inline.is_keyword Heap.is_keyword.
Definition ts_subtree_parse_state (self : Subtree) : Z :=
  SUBTREE_GET self Inline.parse_state Heap.parse_state.
Definition ts_subtree_lookahead_bytes (self : Subtree) : Z :=
  SUBTREE_GET self Inline.lookahead_bytes Heap.lookahead_bytes.

Definition ts_subtree_set_extra (self : MutableSubtree) (is_extra : bool)
    : MutableSubtree :=
  match self with
  | MutableSubtreeData data =>
      MutableSubtreeData (Inline.set_extra data is_extra)
  | MutableSubtreePtr ptr =>
      MutableSubtreePtr (Heap.set_extra ptr is_extra)
  end.

Definition ts_subtree_leaf_symbol (self : Subtree) : Z :=
  match self with
  | SubtreeData data => Inline.symbol data
  | SubtreePtr ptr =>
      if Heap.child_count ptr =? 0 then Heap.symbol ptr
      else FirstLeaf.symbol (Heap.first_leaf ptr)
  end.

Definition ts_subtree_leaf_parse_state (self : Subtree) : Z :=
  match self with
  | SubtreeData data => Inline.parse_state data
  | SubtreePtr ptr =>
      if Heap.child_count ptr =? 0 then Heap.parse_state ptr
      else FirstLeaf.parse_state (Heap.first_leaf ptr)
  end.

Definition ts_subtree_padding (self : Subtree) : Length :=
  match self with
  | SubtreeData data =>
      Build_Length (Inline.padding_bytes data)
        (Build_TSPoint (Inline.padding_rows data)
                       (Inline.padding_columns data))
  | SubtreePtr ptr => Heap.padding ptr
  end.

Definition ts_subtree_size (self : Subtree) : Length :=
  match self with
  | SubtreeData data =>
      Build_Length (Inline.size_bytes data)
        (Build_TSPoint 0 (Inline.size_bytes data))
  | SubtreePtr ptr => Heap.size ptr
  end.

Definition ts_subtree_child_count (self : Subtree) : Z :=
  match self with
  | SubtreeData _ => 0
  | SubtreePtr ptr => Heap.child_count ptr
  end.

Definition ts_subtree_repeat_depth (self : Subtree) : Z :=
  match self with
  | SubtreeData _ => 0
  | SubtreePtr ptr => Heap.repeat_depth ptr
  end.

Definition ts_subtree_is_repetition (self : Subtree) : Z :=
  match self with
  | SubtreeData _ => 0
  | SubtreePtr ptr =>
      if negb (Heap.named ptr) && negb (Heap.visible ptr)
         && negb (Heap.child_count ptr =? 0)
      then 1 else 0
  end.

Definition ts_subtree_node_count (self : Subtree) : Z :=
  match self with
  | SubtreeData _ => 1
  | SubtreePtr ptr =>
      if Heap.child_count ptr =? 0 then 1 else Heap.node_count ptr
  end.

Definition ts_subtree_visible_child_count (self : Subtree) : Z :=
  if ts_subtree_child_count self >? 0 then
    match self with
    | SubtreePtr ptr => Heap.visible_child_count ptr
    | SubtreeData _ => 0   (* not reached: the child count of data is 0 *)
    end
  else 0.

Definition ts_subtree_dynamic_precedence (self : Subtree) : Z :=
  match self with
  | SubtreeData _ => 0
  | SubtreePtr ptr =>
      if Heap.child_count ptr =? 0 then 0 else Heap.dynamic_precedence ptr
  end.

Definition ts_subtree_production_id (self : Subtree) : Z :=
  if ts_subtree_child_count self >? 0 then
    match self with
    | SubtreePtr ptr => Heap.production_id ptr
    | SubtreeData _ => 0   (* not reached: the child count of data is 0 *)
    end
  else 0.

Definition ts_subtree_fragile_left (self : Subtree) : bool :=
  match self with
  | SubtreeData _ => false
  | SubtreePtr ptr => Heap.fragile_left ptr
  end.

Definition ts_subtree_fragile_right (self : Subtree) : bool :=
  match self with
  | SubtreeData _ => false
  | SubtreePtr ptr => Heap.fragile_right ptr
  end.

Definition ts_subtree_has_external_tokens (self : Subtree) : bool :=
  match self with
  | SubtreeData _ => false
  | SubtreePtr ptr => Heap.has_external_tokens ptr
  end.

Definition ts_subtree_has_external_scanner_state_change (self : Subtree)
    : bool :=
  match self with
  | SubtreeData _ => false
  | SubtreePtr ptr => Heap.has_external_scanner_state_change ptr
  end.

Definition ts_subtree_depends_on_column (self : Subtree) : bool :=
  match self with
  | SubtreeData _ => false
  | SubtreePtr ptr => Heap.depends_on_column ptr
  end.

Definition ts_subtree_is_fragile (self : Subtree) : bool :=
  match self with
  | SubtreeData _ => false
  | SubtreePtr ptr => Heap.fragile_left ptr || Heap.fragile_right ptr
  end.

Definition ts_subtree_from_mut (self : MutableSubtree) : Subtree :=
  match self with
  | MutableSubtreeData data => SubtreeData data
  | MutableSubtreePtr ptr => SubtreePtr ptr
  end.

Definition ts_subtree_to_mut_unsafe (self : Subtree) : MutableSubtree :=
  match self with
  | SubtreeData data => MutableSubtreeData data
  | SubtreePtr ptr => MutableSubtreePtr ptr
  end.


(** The member of the union a subtree holds, in either view. *)
Definition Subtree_members (self : Subtree)
    : SubtreeInlineData + SubtreeHeapData :=
  match self with
  | SubtreeData data => inl data
  | SubtreePtr ptr => inr ptr
  end.

Definition MutableSubtree_members (self : MutableSubtree)
    : SubtreeInlineData + SubtreeHeapData :=
  match self with
  | MutableSubtreeData data => inl data
  | MutableSubtreePtr ptr => inr ptr
  end.

(** ** Accessors that use the included headers

    [length.h] ([length_add]), [error_costs.h] (the two cost constants) and
    [tree_sitter/parser.h] (the two reserved symbols) lie outside
    [subtree.h]; the accessors are parametric in what they take from
    them. *)

Section Includes.

Variable length_add : Length -> Length -> Length.
Variables ERROR_COST_PER_MISSING_TREE ERROR_COST_PER_RECOVERY : Z.
Variables ts_builtin_sym_error ts_builtin_sym_end : Z.

Definition ts_subtree_total_size (self : Subtree) : Length :=
  length_add (ts_subtree_padding self) (ts_subtree_size self).

Definition ts_subtree_total_bytes (self : Subtree) : Z :=
  bytes (ts_subtree_total_size self).

(** The sum of the two [int] constants is converted to the [uint32_t]
    return type. *)
Definition ts_subtree_error_cost (self : Subtree) : Z :=
  if ts_subtree_missing self then
    wrap 32 (ERROR_COST_PER_MISSING_TREE + ERROR_COST_PER_RECOVERY)
  else
    match self with
    | SubtreeData _ => 0
    | SubtreePtr ptr => Heap.error_cost ptr
    end.

Definition ts_subtree_is_error (self : Subtree) : bool :=
  ts_subtree_symbol self =? ts_builtin_sym_error.

Definition ts_subtree_is_eof (self : Subtree) : bool :=
  ts_subtree_symbol self =? ts_builtin_sym_end.

End Includes.

(** ** Inline and heap leaves holding the same values

    [equivalent_values d h] compares, member by member, an inline record
    with a heap record describing the same leaf: the members both forms
    have are equal, the padding of the heap record has the bytes, rows and
    columns of the three narrow padding members, its size is [size_bytes]
    bytes and columns on a single row, the heap record has no children,
    and the members only the heap form has (error cost, fragility,
    external-token flags, column dependency) hold the value the inline form
    stands for, which is zero or false.  The reference count and the
    contents of the union are left free. *)

Definition equivalent_values (d : SubtreeInlineData) (h : SubtreeHeapData)
    : bool :=
  (Heap.symbol h =? Inline.symbol d)
  && (Heap.parse_state h =? Inline.parse_state d)
  && Bool.eqb (Heap.visible h) (Inline.visible d)
  && Bool.eqb (Heap.named h) (Inline.named d)
  && Bool.eqb (Heap.extra h) (Inline.extra d)
  && Bool.eqb (Heap.has_changes h) (Inline.has_changes d)
  && Bool.eqb (Heap.is_missing h) (Inline.is_missing d)
  && Bool.eqb (Heap.is_keyword h) (Inline.is_keyword d)
  && (bytes (Heap.padding h) =? Inline.padding_bytes d)
  && (row (extent (Heap.padding h)) =? Inline.padding_rows d)
  && (column (extent (Heap.padding h)) =? Inline.padding_columns d)
  && (bytes (Heap.size h) =? Inline.size_bytes d)
  && (row (extent (Heap.size h)) =? 0)
  && (column (extent (Heap.size h)) =? Inline.size_bytes d)
  && (Heap.lookahead_bytes h =? Inline.lookahead_bytes d)
  && (Heap.child_count h =? 0)
  && (Heap.error_cost h =? 0)
  && negb (Heap.fragile_left h)
  && negb (Heap.fragile_right h)
  && negb (Heap.has_external_tokens h)
  && negb (Heap.has_external_scanner_state_change h)
  && negb (Heap.depends_on_column h).

(** The lengths the narrow members can hold: a padding of at most 255
    bytes, 15 rows and 255 columns; a size of at most 255 bytes on a single
    row, its column extent being its byte extent. *)

Definition inline_holds_padding (p : Length) : bool :=
  in_rangeb 8 (bytes p) && in_rangeb 4 (row (extent p))
  && in_rangeb 8 (column (extent p)).

Definition inline_holds_size (s : Length) : bool :=
  in_rangeb 8 (bytes s) && (row (extent s) =? 0)
  && (column (extent s) =? bytes s).

(** ** External scanner state (subtree.c) *)

(** Modelled from the spec: [ts_external_scanner_state_init] is defined in
    subtree.c, which is not among the sources.  "copies into inline storage
    if [length <= 24], else heap-allocates".  The short array always has its
    24 cells; the cells past [length] are not described by the spec and are
    zero here. *)
Definition ts_external_scanner_state_init (data : list byte) (length : Z)
    : ExternalScannerState :=
  let copied := firstn (Z.to_nat length) data in
  if length <=? short_data_capacity then
    Build_ExternalScannerState
      (short_data
         (copied ++ repeat x00 (Z.to_nat short_data_capacity
                                - List.length copied)%nat))
      length
  else
    Build_ExternalScannerState (long_data copied) length.

(** Modelled from the spec: [ts_external_scanner_state_data] is defined in
    subtree.c, which is not among the sources.  "returns a pointer valid for
    [length] bytes regardless of storage mode": the result is the memory
    the returned pointer addresses. *)
Definition ts_external_scanner_state_data (self : ExternalScannerState)
    : list byte :=
  match storage self with
  | short_data array => array
  | long_data block => block
  end.

Definition stored_inline (self : ExternalScannerState) : bool :=
  match storage self with
  | short_data _ => true
  | long_data _ => false
  end.

(** ** Node counts of parents (subtree.c) *)

Definition sum_node_counts (children : list Subtree) : Z :=
  fold_right Z.add 0 (map ts_subtree_node_count children).

(** Modelled from the spec: the child count and the node count that
    [ts_subtree_new_node] (subtree.c, not among the sources) stores in the
    record of a parent: "node_count as 1+Σchildren", the count of a child
    being read with [ts_subtree_node_count].  The equation is taken over
    [Z] as the spec states it.  The other members are those of [self]. *)
Definition ts_subtree_new_node_counts (self : SubtreeHeapData)
    (children : list Subtree) : SubtreeHeapData :=
  Heap.set_counts self (Z.of_nat (List.length children))
                  (1 + sum_node_counts children).

(** A tree of subtrees as the constructors build it bottom-up: leaves are
    given subtrees, a parent is a record whose counts are set from its
    children. *)
#[local] Unset Elimination Schemes.

Inductive Shape : Type :=
| Leaf (leaf : Subtree)
| Parent (self : SubtreeHeapData) (children : list Shape).

#[local] Set Elimination Schemes.

Fixpoint build (t : Shape) : Subtree :=
  match t with
  | Leaf leaf => leaf
  | Parent self children =>
      SubtreePtr (ts_subtree_new_node_counts self (map build children))
  end.

Fixpoint nodes (t : Shape) : Z :=
  match t with
  | Leaf _ => 1
  | Parent _ children => 1 + fold_right Z.add 0 (map nodes children)
  end.

(** Every leaf of the shape is a childless subtree and every parent has at
    least one child. *)
Fixpoint well_shaped (t : Shape) : bool :=
  match t with
  | Leaf leaf => ts_subtree_child_count leaf =? 0
  | Parent _ children =>
      negb (Nat.eqb (List.length children) 0) && forallb well_shaped children
  end.

(** The results of the accessors on two subtrees coincide. *)
Definition same_results (missing_cost recovery_cost : Z) (a b : Subtree)
    : Prop :=
  ts_subtree_symbol a = ts_subtree_symbol b
  /\ ts_subtree_visible a = ts_subtree_visible b
  /\ ts_subtree_named a = ts_subtree_named b
  /\ ts_subtree_extra a = ts_subtree_extra b
  /\ ts_subtree_has_changes a = ts_subtree_has_changes b
  /\ ts_subtree_missing a = ts_subtree_missing b
  /\ ts_subtree_is_keyword a = ts_subtree_is_keyword b
  /\ ts_subtree_parse_state a = ts_subtree_parse_state b
  /\ ts_subtree_size a = ts_subtree_size b
  /\ ts_subtree_padding a = ts_subtree_padding b
  /\ ts_subtree_lookahead_bytes a = ts_subtree_lookahead_bytes b
  /\ ts_subtree_child_count a = ts_subtree_child_count b
  /\ ts_subtree_error_cost missing_cost recovery_cost a
     = ts_subtree_error_cost missing_cost recovery_cost b
  /\ ts_subtree_dynamic_precedence a = ts_subtree_dynamic_precedence b
  /\ ts_subtree_production_id a = ts_subtree_production_id b
  /\ ts_subtree_fragile_left a = ts_subtree_fragile_left b
  /\ ts_subtree_fragile_right a = ts_subtree_fragile_right b
  /\ ts_subtree_is_fragile a = ts_subtree_is_fragile b
  /\ ts_subtree_has_external_tokens a = ts_subtree_has_external_tokens b
  /\ ts_subtree_has_external_scanner_state_change a
     = ts_subtree_has_external_scanner_state_change b
  /\ ts_subtree_depends_on_column a = ts_subtree_depends_on_column b.

(** ** Allocation size and children of a heap subtree

    [sizeof(Subtree)], [sizeof(SubtreeHeapData)] and the width of [size_t]
    depend on the target; [size_t] is taken to be at least as wide as
    [uint32_t], so that the child count is converted to it unchanged.  A
    pointer being represented by the record it points to, the address it
    holds is passed alongside where the arithmetic needs it; [NULL] is 0. *)

Definition NULL : Z := 0.

Section Layout.

Variable size_t_bits : Z.
Variables sizeof_Subtree sizeof_SubtreeHeapData : Z.

(** [child_count * sizeof(Subtree) + sizeof(SubtreeHeapData)], each
    operation in [size_t]. *)
Definition ts_subtree_alloc_size (child_count : Z) : Z :=
  wrap size_t_bits
    (wrap size_t_bits (child_count * sizeof_Subtree)
     + sizeof_SubtreeHeapData).

(** [(self).data.is_inline ? NULL
      : (Subtree * )((self).ptr) - (self).ptr->child_count], as a byte
    address, [ptr] being the address [self.ptr] holds. *)
Definition ts_subtree_children (self : Subtree) (ptr : Z) : Z :=
  match self with
  | SubtreeData _ => NULL
  | SubtreePtr h => ptr - Heap.child_count h * sizeof_Subtree
  end.

End Layout.

(** ** Well-formed records

    Every member lies within the width of its C type. *)

Definition in_int32 (z : Z) : Prop := - 2 ^ 31 <= z < 2 ^ 31.

Definition HeapData_wf (h : SubtreeHeapData) : Prop :=
  in_range 32 (Heap.ref_count h)
  /\ Length_wf (Heap.padding h) /\ Length_wf (Heap.size h)
  /\ in_range 32 (Heap.lookahead_bytes h)
  /\ in_range 32 (Heap.error_cost h)
  /\ in_range 32 (Heap.child_count h)
  /\ in_range 16 (Heap.symbol h) /\ in_range 16 (Heap.parse_state h)
  /\ in_range 32 (Heap.visible_child_count h)
  /\ in_range 32 (Heap.named_child_count h)
  /\ in_range 32 (Heap.node_count h)
  /\ in_int32 (Heap.dynamic_precedence h)
  /\ in_range 16 (Heap.repeat_depth h)
  /\ in_range 16 (Heap.production_id h)
  /\ in_range 16 (FirstLeaf.symbol (Heap.first_leaf h))
  /\ in_range 16 (FirstLeaf.parse_state (Heap.first_leaf h))
  /\ in_int32 (Heap.lookahead_char h).

Definition Subtree_wf (self : Subtree) : Prop :=
  match self with
  | SubtreeData d => Inline.wf d
  | SubtreePtr h => HeapData_wf h
  end.

Definition MutableSubtree_wf (self : MutableSubtree) : Prop :=
  Subtree_wf (ts_subtree_from_mut self).

(** [h] with the three members of its union replaced. *)
Definition with_union (h : SubtreeHeapData)
    (visible_child_count named_child_count node_count dynamic_precedence
     repeat_depth production_id : Z) (first_leaf : FirstLeaf.t)
    (external_scanner_state : ExternalScannerState) (lookahead_char : Z)
    : SubtreeHeapData :=
  Heap.Build (Heap.ref_count h) (Heap.padding h) (Heap.size h)
             (Heap.lookahead_bytes h) (Heap.error_cost h)
             (Heap.child_count h) (Heap.symbol h) (Heap.parse_state h)
             (Heap.visible h) (Heap.named h) (Heap.extra h)
             (Heap.fragile_left h) (Heap.fragile_right h)
             (Heap.has_changes h) (Heap.has_external_tokens h)
             (Heap.has_external_scanner_state_change h)
             (Heap.depends_on_column h) (Heap.is_missing h)
             (Heap.is_keyword h)
             visible_child_count named_child_count node_count
             dynamic_precedence repeat_depth production_id first_leaf
             external_scanner_state lookahead_char.

(** The results of every accessor but [ts_subtree_extra] coincide. *)
Definition same_results_but_extra
    (length_add : Length -> Length -> Length)
    (missing_cost recovery_cost sym_error sym_end : Z) (a b : Subtree)
    : Prop :=
  is_inline a = is_inline b
  /\ ts_subtree_symbol a = ts_subtree_symbol b
  /\ ts_subtree_visible a = ts_subtree_visible b
  /\ ts_subtree_named a = ts_subtree_named b
  /\ ts_subtree_has_changes a = ts_subtree_has_changes b
  /\ ts_subtree_missing a = ts_subtree_missing b
  /\ ts_subtree_is_keyword a = ts_subtree_is_keyword b
  /\ ts_subtree_parse_state a = ts_subtree_parse_state b
  /\ ts_subtree_lookahead_bytes a = ts_subtree_lookahead_bytes b
  /\ ts_subtree_leaf_symbol a = ts_subtree_leaf_symbol b
  /\ ts_subtree_leaf_parse_state a = ts_subtree_leaf_parse_state b
  /\ ts_subtree_padding a = ts_subtree_padding b
  /\ ts_subtree_size a = ts_subtree_size b
  /\ ts_subtree_total_size length_add a = ts_subtree_total_size length_add b
  /\ ts_subtree_total_bytes length_add a
     = ts_subtree_total_bytes length_add b
  /\ ts_subtree_child_count a = ts_subtree_child_count b
  /\ ts_subtree_repeat_depth a = ts_subtree_repeat_depth b
  /\ ts_subtree_is_repetition a = ts_subtree_is_repetition b
  /\ ts_subtree_node_count a = ts_subtree_node_count b
  /\ ts_subtree_visible_child_count a = ts_subtree_visible_child_count b
  /\ ts_subtree_error_cost missing_cost recovery_cost a
     = ts_subtree_error_cost missing_cost recovery_cost b
  /\ ts_subtree_dynamic_precedence a = ts_subtree_dynamic_precedence b
  /\ ts_subtree_production_id a = ts_subtree_production_id b
  /\ ts_subtree_fragile_left a = ts_subtree_fragile_left b
  /\ ts_subtree_fragile_right a = ts_subtree_fragile_right b
  /\ ts_subtree_has_external_tokens a = ts_subtree_has_external_tokens b
  /\ ts_subtree_has_external_scanner_state_change a
     = ts_subtree_has_external_scanner_state_change b
  /\ ts_subtree_depends_on_column a = ts_subtree_depends_on_column b
  /\ ts_subtree_is_fragile a = ts_subtree_is_fragile b
  /\ ts_subtree_is_error sym_error a = ts_subtree_is_error sym_error b
  /\ ts_subtree_is_eof sym_end a = ts_subtree_is_eof sym_end b.

(** ** Sample values *)

Definition sample_inline : SubtreeInlineData :=
  Inline.Build true true false false false true 7 41 3 1 2 5 9.

Definition sample_heap : SubtreeHeapData :=
  Heap.Build 1 (Build_Length 5 (Build_TSPoint 1 3))
             (Build_Length 9 (Build_TSPoint 0 9)) 2 0 0 7 41
             true true false false false false false false false false true
             0 0 0 0 0 0 (FirstLeaf.Build 0 0)
             (Build_ExternalScannerState (short_data []) 0) 0.

Definition sample_parent : SubtreeHeapData :=
  Heap.Build 1 (Build_Length 2 (Build_TSPoint 0 2))
             (Build_Length 300 (Build_TSPoint 4 12)) 1 230 3 300 12
             true true false false true false false false true false false
             2 2 6 (-3) 1 17 (FirstLeaf.Build 7 41)
             (Build_ExternalScannerState (short_data []) 0) 0.

Definition sample_missing : SubtreeHeapData :=
  Heap.Build 1 (Build_Length 2 (Build_TSPoint 0 2))
             (Build_Length 0 (Build_TSPoint 0 0)) 0 3 0 300 12
             true true false false false false false false false true false
             0 0 0 0 0 0 (FirstLeaf.Build 0 0)
             (Build_ExternalScannerState (short_data []) 0) 0.

Definition sample_error : SubtreeHeapData :=
  Heap.Build 1 (Build_Length 0 (Build_TSPoint 0 0))
             (Build_Length 1 (Build_TSPoint 0 1)) 1 0 0 65535 0
             true true false true true false false false false false false
             0 0 0 0 0 0 (FirstLeaf.Build 0 0)
             (Build_ExternalScannerState (short_data []) 0) 64.

Definition sample_repetition : SubtreeHeapData :=
  Heap.Build 1 (Build_Length 0 (Build_TSPoint 0 0))
             (Build_Length 12 (Build_TSPoint 0 12)) 0 0 2 301 5
             false false false false false false false false false false
             false
             0 0 3 0 1 0 (FirstLeaf.Build 7 41)
             (Build_ExternalScannerState (short_data []) 0) 0.

Definition sample_padding : Length := Build_Length 200 (Build_TSPoint 15 80).
Definition sample_size : Length := Build_Length 255 (Build_TSPoint 0 255).
Definition sample_bytes : list byte := repeat x2a 30.

(** * Properties *)

(** ** Arithmetic of the fixed-width members *)

Lemma wrap_in_range (w z : Z) : 0 <= w -> in_range w (wrap w z).
Proof.
  intros Hw. unfold in_range, wrap.
  apply Z.mod_pos_bound. apply Z.pow_pos_nonneg; lia.
Qed.

Lemma wrap_id (w z : Z) : in_range w z -> wrap w z = z.
Proof. unfold in_range, wrap. intros H. now apply Z.mod_small. Qed.

Lemma in_rangeb_spec (w z : Z) : in_rangeb w z = true <-> in_range w z.
Proof.
  unfold in_rangeb, in_range.
  rewrite andb_true_iff, Z.leb_le, Z.ltb_lt. tauto.
Qed.

Lemma inline_holds_padding_spec (p : Length) :
  inline_holds_padding p = true <->
  in_range 8 (bytes p) /\ in_range 4 (row (extent p))
  /\ in_range 8 (column (extent p)).
Proof.
  unfold inline_holds_padding.
  rewrite !andb_true_iff, !in_rangeb_spec. tauto.
Qed.

Lemma inline_holds_size_spec (s : Length) :
  inline_holds_size s = true <->
  in_range 8 (bytes s) /\ row (extent s) = 0
  /\ column (extent s) = bytes s.
Proof.
  unfold inline_holds_size.
  rewrite !andb_true_iff, in_rangeb_spec, !Z.eqb_eq. tauto.
Qed.

(** ** Stores and reads of lengths *)

Lemma inline_padding_set_lengths (d : SubtreeInlineData) (p s : Length) :
  inline_holds_padding p = true ->
  ts_subtree_padding (SubtreeData (Inline.set_lengths d p s)) = p.
Proof.
  rewrite inline_holds_padding_spec. intros (Hb & Hr & Hc).
  destruct p as [pb [pr pc]]. simpl in *.
  now rewrite !wrap_id.
Qed.

Lemma inline_size_set_lengths (d : SubtreeInlineData) (p s : Length) :
  inline_holds_size s = true ->
  ts_subtree_size (SubtreeData (Inline.set_lengths d p s)) = s.
Proof.
  rewrite inline_holds_size_spec. intros (Hb & Hr & Hc).
  destruct s as [sb [sr sc]]. simpl in *. subst.
  now rewrite !wrap_id.
Qed.

Lemma set_lengths_wf (d : SubtreeInlineData) (p s : Length) :
  Inline.wf d -> Inline.wf (Inline.set_lengths d p s).
Proof.
  unfold Inline.wf. simpl. intros (? & ? & _ & _ & ? & _ & _).
  repeat (match goal with |- _ /\ _ => split end);
    try assumption; apply wrap_in_range; lia.
Qed.

(** The lengths read from a well-formed inline record are [uint32_t]
    triples: widening the narrow members loses nothing. *)
Lemma inline_lengths_wf (d : SubtreeInlineData) :
  Inline.wf d ->
  Length_wf (ts_subtree_padding (SubtreeData d))
  /\ Length_wf (ts_subtree_size (SubtreeData d)).
Proof.
  unfold Inline.wf, Length_wf, in_range. cbn.
  intros (_ & _ & Hc & Hr & _ & Hb & Hs). lia.
Qed.

(** ** Setting the [extra] flag *)

Lemma set_extra_extra (self : MutableSubtree) (is_extra : bool) :
  ts_subtree_extra (ts_subtree_from_mut (ts_subtree_set_extra self is_extra))
  = is_extra.
Proof. destruct self as [d | h]; reflexivity. Qed.

Lemma set_extra_frame (self : MutableSubtree) (is_extra : bool) :
  let before := ts_subtree_from_mut self in
  let after := ts_subtree_from_mut (ts_subtree_set_extra self is_extra) in
  is_inline after = is_inline before
  /\ ts_subtree_symbol after = ts_subtree_symbol before
  /\ ts_subtree_parse_state after = ts_subtree_parse_state before
  /\ ts_subtree_padding after = ts_subtree_padding before
  /\ ts_subtree_size after = ts_subtree_size before
  /\ ts_subtree_child_count after = ts_subtree_child_count before
  /\ ts_subtree_node_count after = ts_subtree_node_count before.
Proof. destruct self as [d | h]; cbn; repeat split. Qed.

(** ** What [equivalent_values] says, member by member *)

Lemma equivalent_values_spec (d : SubtreeInlineData) (h : SubtreeHeapData) :
  equivalent_values d h = true <->
  (Heap.symbol h = Inline.symbol d
   /\ Heap.parse_state h = Inline.parse_state d
   /\ Heap.visible h = Inline.visible d
   /\ Heap.named h = Inline.named d
   /\ Heap.extra h = Inline.extra d
   /\ Heap.has_changes h = Inline.has_changes d
   /\ Heap.is_missing h = Inline.is_missing d
   /\ Heap.is_keyword h = Inline.is_keyword d
   /\ Heap.padding h
      = Build_Length (Inline.padding_bytes d)
          (Build_TSPoint (Inline.padding_rows d) (Inline.padding_columns d))
   /\ Heap.size h
      = Build_Length (Inline.size_bytes d)
          (Build_TSPoint 0 (Inline.size_bytes d))
   /\ Heap.lookahead_bytes h = Inline.lookahead_bytes d
   /\ Heap.child_count h = 0
   /\ Heap.error_cost h = 0
   /\ Heap.fragile_left h = false
   /\ Heap.fragile_right h = false
   /\ Heap.has_external_tokens h = false
   /\ Heap.has_external_scanner_state_change h = false
   /\ Heap.depends_on_column h = false).
Proof.
  unfold equivalent_values.
  rewrite !andb_true_iff, !Z.eqb_eq, !eqb_true_iff, !negb_true_iff.
  destruct (Heap.padding h) as [pb [pr pc]], (Heap.size h) as [sb [sr sc]].
  cbn [bytes extent row column].
  split.
  - intros H. decompose [and] H. subst. tauto.
  - intros H. decompose [and] H.
    repeat match goal with
           | E : Build_Length _ _ = Build_Length _ _ |- _ =>
               injection E as -> -> ->
           end.
    tauto.
Qed.

Lemma set_lengths_equivalent (d : SubtreeInlineData) (h : SubtreeHeapData)
    (p s : Length) :
  equivalent_values d h = true ->
  inline_holds_padding p = true -> inline_holds_size s = true ->
  equivalent_values (Inline.set_lengths d p s) (Heap.set_lengths h p s)
  = true.
Proof.
  intros H Hp Hs.
  apply equivalent_values_spec in H. apply equivalent_values_spec.
  pose proof (inline_padding_set_lengths d p s Hp) as Ep.
  pose proof (inline_size_set_lengths d p s Hs) as Es.
  destruct d, h; cbn in *. rewrite Ep, Es. tauto.
Qed.

(** ** Properties that mention the included headers *)

Section IncludesProperties.

Variable length_add : Length -> Length -> Length.
Variables ERROR_COST_PER_MISSING_TREE ERROR_COST_PER_RECOVERY : Z.
Variables ts_builtin_sym_error ts_builtin_sym_end : Z.

Local Abbreviation error_cost :=
  (ts_subtree_error_cost ERROR_COST_PER_MISSING_TREE ERROR_COST_PER_RECOVERY).
Local Abbreviation total_size := (ts_subtree_total_size length_add).
Local Abbreviation total_bytes := (ts_subtree_total_bytes length_add).
Local Abbreviation is_error := (ts_subtree_is_error ts_builtin_sym_error).
Local Abbreviation is_eof := (ts_subtree_is_eof ts_builtin_sym_end).

(** C1.  An inline subtree and a heap subtree that hold equivalent values
    (same symbol, flags, size, padding, lookahead bytes and parse state, no
    children, the heap-only members at the zero or false the inline form
    stands for) give the same result under every accessor: symbol,
    visibility, named-ness, extra, has-changes, missing, keyword, parse
    state, size, padding, lookahead bytes, child count, error cost, dynamic
    precedence, production id, fragility, external-token flags and column
    dependency.  In particular, for every padding and size the inline form
    can hold, both forms return exactly that padding and that size after it
    is stored in them. *)
Theorem inline_heap_equivalence :
  (forall (d : SubtreeInlineData) (h : SubtreeHeapData),
      equivalent_values d h = true ->
      same_results ERROR_COST_PER_MISSING_TREE ERROR_COST_PER_RECOVERY
                   (SubtreeData d) (SubtreePtr h))
  /\ (forall (d : SubtreeInlineData) (h : SubtreeHeapData) (p s : Length),
         inline_holds_padding p = true -> inline_holds_size s = true ->
         ts_subtree_padding (SubtreeData (Inline.set_lengths d p s)) = p
         /\ ts_subtree_padding (SubtreePtr (Heap.set_lengths h p s)) = p
         /\ ts_subtree_size (SubtreeData (Inline.set_lengths d p s)) = s
         /\ ts_subtree_size (SubtreePtr (Heap.set_lengths h p s)) = s).
Proof.
  split.
  - intros d h H. apply equivalent_values_spec in H.
    destruct H as (Hsym & Hst & Hv & Hn & Hx & Hc & Hm & Hk & Hp & Hs & Hl
                   & Hcc & Hec & Hfl & Hfr & Het & Hes & Hdc).
    unfold same_results, ts_subtree_error_cost, ts_subtree_production_id,
      ts_subtree_dynamic_precedence, ts_subtree_is_fragile.
    cbn -[wrap Z.add].
    rewrite Hsym, Hst, Hv, Hn, Hx, Hc, Hm, Hk, Hp, Hs, Hl, Hcc, Hec, Hfl, Hfr,
      Het, Hes, Hdc.
    cbn -[wrap Z.add].
    destruct (Inline.is_missing d); repeat split; reflexivity.
  - intros d h p s Hp Hs.
    split; [now apply inline_padding_set_lengths|].
    split; [reflexivity|].
    split; [now apply inline_size_set_lengths|reflexivity].
Qed.

(** C2.  A subtree whose [is_missing] flag is set, in either form, has
    error cost [ERROR_COST_PER_MISSING_TREE + ERROR_COST_PER_RECOVERY] (as a
    [uint32_t]; it is the sum itself whenever the sum is a [uint32_t]
    value), whatever its stored [error_cost]; an inline subtree that is not
    missing has error cost 0; a heap subtree that is not missing has its
    stored [error_cost]. *)
Theorem missing_error_cost :
  (forall self : Subtree,
      ts_subtree_missing self = true ->
      error_cost self
      = wrap 32 (ERROR_COST_PER_MISSING_TREE + ERROR_COST_PER_RECOVERY))
  /\ (in_range 32 (ERROR_COST_PER_MISSING_TREE + ERROR_COST_PER_RECOVERY) ->
      forall self : Subtree,
        ts_subtree_missing self = true ->
        error_cost self
        = ERROR_COST_PER_MISSING_TREE + ERROR_COST_PER_RECOVERY)
  /\ (forall h h' : SubtreeHeapData,
         Heap.is_missing h = true -> Heap.is_missing h' = true ->
         error_cost (SubtreePtr h) = error_cost (SubtreePtr h'))
  /\ (forall d : SubtreeInlineData,
         Inline.is_missing d = false -> error_cost (SubtreeData d) = 0)
  /\ (forall h : SubtreeHeapData,
         Heap.is_missing h = false ->
         error_cost (SubtreePtr h) = Heap.error_cost h).
Proof.
  unfold ts_subtree_error_cost.
  repeat (match goal with |- _ /\ _ => split end).
  - now intros self ->.
  - intros Hrange self ->. now apply wrap_id.
  - intros h h'. cbn. now intros -> ->.
  - intros d. cbn. now intros ->.
  - intros h. cbn. now intros ->.
Qed.

(** C3.  The total size of a subtree, in either form, is [length_add] of
    its padding and its size, and its total bytes are the [bytes] member of
    that sum. *)
Theorem total_size_is_padding_plus_size :
  forall self : Subtree,
    total_size self
    = length_add (ts_subtree_padding self) (ts_subtree_size self)
    /\ total_bytes self
       = bytes (length_add (ts_subtree_padding self) (ts_subtree_size self))
    /\ match self with
       | SubtreeData d =>
           total_size self
           = length_add
               (Build_Length (Inline.padding_bytes d)
                  (Build_TSPoint (Inline.padding_rows d)
                                 (Inline.padding_columns d)))
               (Build_Length (Inline.size_bytes d)
                  (Build_TSPoint 0 (Inline.size_bytes d)))
       | SubtreePtr h =>
           total_size self = length_add (Heap.padding h) (Heap.size h)
       end.
Proof.
  intros [d | h]; unfold ts_subtree_total_bytes, ts_subtree_total_size;
    repeat split; reflexivity.
Qed.

(** C8.  [ts_subtree_is_error] holds exactly when the symbol of the
    subtree, read with [ts_subtree_symbol] in either form, is the reserved
    error symbol; [ts_subtree_is_eof] holds exactly when it is the reserved
    end-of-input symbol. *)
Theorem is_error_is_eof_by_symbol :
  forall self : Subtree,
    (is_error self = true <-> ts_subtree_symbol self = ts_builtin_sym_error)
    /\ (is_eof self = true <-> ts_subtree_symbol self = ts_builtin_sym_end).
Proof.
  intros self. unfold ts_subtree_is_error, ts_subtree_is_eof.
  split; apply Z.eqb_eq.
Qed.

End IncludesProperties.

(** ** Children and leaves *)

(** C4.  An inline subtree has child count 0, so a subtree with a positive
    child count is in heap form; on an inline subtree the accessors that
    depend on children (visible child count, production id, dynamic
    precedence, repeat depth) return 0. *)
Theorem inline_has_no_children :
  (forall d : SubtreeInlineData, ts_subtree_child_count (SubtreeData d) = 0)
  /\ (forall self : Subtree,
         0 < ts_subtree_child_count self ->
         is_inline self = false /\ exists h, self = SubtreePtr h)
  /\ (forall d : SubtreeInlineData,
         ts_subtree_visible_child_count (SubtreeData d) = 0
         /\ ts_subtree_production_id (SubtreeData d) = 0
         /\ ts_subtree_dynamic_precedence (SubtreeData d) = 0
         /\ ts_subtree_repeat_depth (SubtreeData d) = 0).
Proof.
  split; [reflexivity|]. split.
  - intros [d | h]; cbn.
    + lia.
    + intros _. split; [reflexivity | now exists h].
  - intros d. repeat split.
Qed.

(** C5.  On a leaf (an inline subtree, or a heap subtree whose child count
    is 0) [ts_subtree_leaf_symbol] and [ts_subtree_leaf_parse_state] return
    the symbol and the parse state of the subtree itself; on a heap subtree
    with a positive child count they return the symbol and the parse state
    cached in [first_leaf]. *)
Theorem leaf_accessors :
  (forall d : SubtreeInlineData,
      ts_subtree_leaf_symbol (SubtreeData d)
      = ts_subtree_symbol (SubtreeData d)
      /\ ts_subtree_leaf_parse_state (SubtreeData d)
         = ts_subtree_parse_state (SubtreeData d))
  /\ (forall h : SubtreeHeapData,
         Heap.child_count h = 0 ->
         ts_subtree_leaf_symbol (SubtreePtr h)
         = ts_subtree_symbol (SubtreePtr h)
         /\ ts_subtree_leaf_parse_state (SubtreePtr h)
            = ts_subtree_parse_state (SubtreePtr h))
  /\ (forall h : SubtreeHeapData,
         0 < Heap.child_count h ->
         ts_subtree_leaf_symbol (SubtreePtr h)
         = FirstLeaf.symbol (Heap.first_leaf h)
         /\ ts_subtree_leaf_parse_state (SubtreePtr h)
            = FirstLeaf.parse_state (Heap.first_leaf h)).
Proof.
  split; [intros d; split; reflexivity|]. split.
  - intros h Hc. cbn. rewrite Hc. split; reflexivity.
  - intros h Hc. cbn.
    destruct (Z.eqb_spec (Heap.child_count h) 0) as [E | _]; [lia|].
    split; reflexivity.
Qed.

(** ** Node counts *)

Lemma leaf_node_count (self : Subtree) :
  ts_subtree_child_count self = 0 -> ts_subtree_node_count self = 1.
Proof.
  destruct self as [d | h]; cbn; [reflexivity|].
  now intros ->.
Qed.

Lemma new_node_counts_node_count (self : SubtreeHeapData)
    (children : list Subtree) :
  children <> [] ->
  ts_subtree_node_count
    (SubtreePtr (ts_subtree_new_node_counts self children))
  = 1 + sum_node_counts children.
Proof.
  intros Hne. cbn.
  destruct children as [| c cs]; [congruence|]. reflexivity.
Qed.

Lemma Shape_induction (P : Shape -> Prop) :
  (forall leaf, P (Leaf leaf)) ->
  (forall self children, Forall P children -> P (Parent self children)) ->
  forall t, P t.
Proof.
  intros Hleaf Hparent. fix IH 1. intros [leaf | self children].
  - apply Hleaf.
  - apply Hparent. induction children as [| c cs IHcs]; constructor.
    + apply IH.
    + exact IHcs.
Qed.

Lemma sum_build_node_counts (children : list Shape) :
  Forall (fun t => well_shaped t = true ->
                   ts_subtree_node_count (build t) = nodes t) children ->
  forallb well_shaped children = true ->
  sum_node_counts (map build children)
  = fold_right Z.add 0 (map nodes children).
Proof.
  unfold sum_node_counts.
  induction 1 as [| c cs Hc _ IHcs]; [reflexivity|].
  cbn. intros Hall. apply andb_prop in Hall as [Hwc Hwcs].
  now rewrite (Hc Hwc), (IHcs Hwcs).
Qed.

(** The node count of a tree built bottom-up is the number of its nodes. *)
Lemma build_node_count (t : Shape) :
  well_shaped t = true -> ts_subtree_node_count (build t) = nodes t.
Proof.
  induction t as [leaf | self children IH] using Shape_induction;
    intros Hwf.
  - cbn in *. apply leaf_node_count. now apply Z.eqb_eq.
  - cbn [well_shaped] in Hwf. apply andb_prop in Hwf as [Hne Hall].
    cbn [build nodes]. rewrite new_node_counts_node_count.
    + f_equal. now apply sum_build_node_counts.
    + destruct children; [discriminate | discriminate].
Qed.

(** C7.  [ts_subtree_node_count] is 1 on a leaf (an inline subtree, or a
    heap subtree whose child count is 0); on a heap subtree with a positive
    child count it is the stored [node_count], and the [node_count] stored
    for a parent with at least one child is 1 plus the sum of the node
    counts of its children. *)
Theorem node_count_of_leaves_and_parents :
  (forall d : SubtreeInlineData, ts_subtree_node_count (SubtreeData d) = 1)
  /\ (forall h : SubtreeHeapData,
         Heap.child_count h = 0 -> ts_subtree_node_count (SubtreePtr h) = 1)
  /\ (forall h : SubtreeHeapData,
         0 < Heap.child_count h ->
         ts_subtree_node_count (SubtreePtr h) = Heap.node_count h)
  /\ (forall (h : SubtreeHeapData) (children : list Subtree),
         children <> [] ->
         let parent := ts_subtree_new_node_counts h children in
         0 < Heap.child_count parent
         /\ Heap.node_count parent
            = 1 + fold_right Z.add 0 (map ts_subtree_node_count children)
         /\ ts_subtree_node_count (SubtreePtr parent)
            = 1 + fold_right Z.add 0 (map ts_subtree_node_count children)).
Proof.
  split; [reflexivity|]. split; [|split].
  - intros h Hc. now apply (leaf_node_count (SubtreePtr h)).
  - intros h Hc. cbn.
    destruct (Z.eqb_spec (Heap.child_count h) 0) as [E | _]; [lia|].
    reflexivity.
  - intros h children Hne parent. split; [|split].
    + subst parent. cbn. destruct children; [congruence|].
      cbn [List.length]. lia.
    + reflexivity.
    + now apply new_node_counts_node_count.
Qed.

(** ** External scanner state *)

Lemma copied_length (data : list byte) (len : Z) :
  0 <= len <= Z.of_nat (List.length data) ->
  List.length (firstn (Z.to_nat len) data) = Z.to_nat len.
Proof. intros H. apply firstn_length_le. lia. Qed.

(** C6.  For a buffer of [len] readable bytes, the state initialised from
    it records [len]; it keeps the bytes in the 24-cell short array exactly
    when [len <= 24] and in a separately allocated block of [len] bytes
    otherwise; and in either mode [ts_external_scanner_state_data] addresses
    at least [len] bytes, the first [len] of which are the bytes given. *)
Theorem scanner_state_storage_threshold :
  forall (data : list byte) (len : Z),
    0 <= len <= Z.of_nat (List.length data) ->
    let self := ts_external_scanner_state_init data len in
    length self = len
    /\ stored_inline self = (len <=? 24)
    /\ (len <= 24 ->
        exists array, storage self = short_data array
                      /\ List.length array = 24%nat)
    /\ (24 < len ->
        exists block, storage self = long_data block
                      /\ Z.of_nat (List.length block) = len)
    /\ len <= Z.of_nat (List.length (ts_external_scanner_state_data self))
    /\ firstn (Z.to_nat len) (ts_external_scanner_state_data self)
       = firstn (Z.to_nat len) data.
Proof.
  intros data len Hlen self. subst self.
  pose proof (copied_length data len Hlen) as Hcopied.
  unfold ts_external_scanner_state_init, short_data_capacity,
    ts_external_scanner_state_data, stored_inline.
  destruct (Z.leb_spec len 24) as [Hle | Hgt]; cbn [storage length].
  - assert (Hpad : List.length
                     (firstn (Z.to_nat len) data
                      ++ repeat x00 (Z.to_nat 24
                                     - List.length
                                         (firstn (Z.to_nat len) data))%nat)
                   = 24%nat).
    { rewrite length_app, repeat_length, Hcopied. lia. }
    repeat (match goal with |- _ /\ _ => split end).
    + reflexivity.
    + reflexivity.
    + intros _. eexists. split; [reflexivity | exact Hpad].
    + lia.
    + rewrite Hpad. lia.
    + rewrite firstn_app, Hcopied, Nat.sub_diag, firstn_O, app_nil_r.
      apply firstn_all2. rewrite Hcopied. lia.
  - repeat (match goal with |- _ /\ _ => split end).
    + reflexivity.
    + reflexivity.
    + lia.
    + intros _. eexists. split; [reflexivity|]. rewrite Hcopied. lia.
    + rewrite Hcopied. lia.
    + apply firstn_all2. rewrite Hcopied. lia.
Qed.

(** ** Sizes and paddings of inline leaves *)

(** C9.  The size of an inline subtree is read from [size_bytes] alone: its
    row count is 0 and its column count is its byte count, so no inline
    subtree has a size that spans a row boundary or whose column extent
    differs from its byte extent; every size of that form up to 255 bytes
    is the size of some inline subtree.  The padding is read from three
    separate members, and every combination of at most 255 bytes, 15 rows
    and 255 columns is the padding of some inline subtree. *)
Theorem inline_size_single_row :
  (forall d : SubtreeInlineData,
      bytes (ts_subtree_size (SubtreeData d)) = Inline.size_bytes d
      /\ row (extent (ts_subtree_size (SubtreeData d))) = 0
      /\ column (extent (ts_subtree_size (SubtreeData d)))
         = bytes (ts_subtree_size (SubtreeData d)))
  /\ (forall (d : SubtreeInlineData) (l : Length),
         row (extent l) <> 0 \/ column (extent l) <> bytes l ->
         ts_subtree_size (SubtreeData d) <> l)
  /\ (forall l : Length,
         inline_holds_size l = true ->
         exists d, Inline.wf d /\ ts_subtree_size (SubtreeData d) = l)
  /\ (forall d : SubtreeInlineData,
         ts_subtree_padding (SubtreeData d)
         = Build_Length (Inline.padding_bytes d)
             (Build_TSPoint (Inline.padding_rows d)
                            (Inline.padding_columns d)))
  /\ (forall p : Length,
         inline_holds_padding p = true ->
         exists d, Inline.wf d /\ ts_subtree_padding (SubtreeData d) = p).
Proof.
  assert (Hsample : Inline.wf sample_inline).
  { unfold Inline.wf, in_range. cbn. lia. }
  repeat (match goal with |- _ /\ _ => split end).
  - intros d. cbn. auto.
  - intros d l Hl E. subst l. cbn in Hl. lia.
  - intros l Hl. exists (Inline.set_lengths sample_inline l l). split.
    + now apply set_lengths_wf.
    + now apply inline_size_set_lengths.
  - reflexivity.
  - intros p Hp. exists (Inline.set_lengths sample_inline p p). split.
    + now apply set_lengths_wf.
    + now apply inline_padding_set_lengths.
Qed.

(** ** Shared and mutable views *)

(** C10.  [ts_subtree_from_mut] and [ts_subtree_to_mut_unsafe] are inverse
    to each other, each keeps the members of the union as they are, and
    whatever is computed from a subtree is the same after a conversion to
    the mutable view and back. *)
Theorem from_mut_to_mut_round_trip :
  (forall self : Subtree,
      ts_subtree_from_mut (ts_subtree_to_mut_unsafe self) = self)
  /\ (forall self : MutableSubtree,
         ts_subtree_to_mut_unsafe (ts_subtree_from_mut self) = self)
  /\ (forall self : Subtree,
         MutableSubtree_members (ts_subtree_to_mut_unsafe self)
         = Subtree_members self)
  /\ (forall self : MutableSubtree,
         Subtree_members (ts_subtree_from_mut self)
         = MutableSubtree_members self)
  /\ (forall (A : Type) (accessor : Subtree -> A) (self : Subtree),
         accessor (ts_subtree_from_mut (ts_subtree_to_mut_unsafe self))
         = accessor self).
Proof.
  assert (Hround : forall self : Subtree,
             ts_subtree_from_mut (ts_subtree_to_mut_unsafe self) = self).
  { intros [d | h]; reflexivity. }
  repeat (match goal with |- _ /\ _ => split end).
  - exact Hround.
  - intros [d | h]; reflexivity.
  - intros [d | h]; reflexivity.
  - intros [d | h]; reflexivity.
  - intros A accessor self. now rewrite Hround.
Qed.

(** ** Instances on the sample values *)

Lemma inline_heap_equivalence_witness :
  equivalent_values sample_inline sample_heap = true
  /\ same_results 110 500 (SubtreeData sample_inline) (SubtreePtr sample_heap)
  /\ inline_holds_padding sample_padding = true
  /\ inline_holds_size sample_size = true
  /\ ts_subtree_padding
       (SubtreeData
          (Inline.set_lengths sample_inline sample_padding sample_size))
     = sample_padding
  /\ ts_subtree_padding
       (SubtreePtr (Heap.set_lengths sample_heap sample_padding sample_size))
     = sample_padding
  /\ ts_subtree_size
       (SubtreeData
          (Inline.set_lengths sample_inline sample_padding sample_size))
     = sample_size
  /\ ts_subtree_size
       (SubtreePtr (Heap.set_lengths sample_heap sample_padding sample_size))
     = sample_size.
Proof.
  split; [reflexivity|].
  split; [apply (proj1 (inline_heap_equivalence 110 500)); reflexivity|].
  split; [reflexivity|]. split; [reflexivity|].
  apply (proj2 (inline_heap_equivalence 110 500)); reflexivity.
Defined.

Lemma missing_error_cost_witness :
  in_range 32 (110 + 500)
  /\ ts_subtree_missing (SubtreePtr sample_missing) = true
  /\ ts_subtree_error_cost 110 500 (SubtreePtr sample_missing) = 110 + 500
  /\ Inline.is_missing sample_inline = false
  /\ ts_subtree_error_cost 110 500 (SubtreeData sample_inline) = 0
  /\ Heap.is_missing sample_parent = false
  /\ ts_subtree_error_cost 110 500 (SubtreePtr sample_parent) = 230.
Proof.
  assert (Hrange : in_range 32 (110 + 500)) by (unfold in_range; cbn; lia).
  pose proof (missing_error_cost 110 500) as (_ & Hm & _ & Hd & Hh).
  specialize (Hm Hrange).
  split; [exact Hrange|]. split; [reflexivity|].
  split; [apply Hm; reflexivity|]. split; [reflexivity|].
  split; [apply Hd; reflexivity|]. split; [reflexivity|].
  apply Hh; reflexivity.
Defined.

Lemma is_error_is_eof_by_symbol_witness :
  ts_subtree_symbol (SubtreePtr sample_error) = 65535
  /\ ts_subtree_is_error 65535 (SubtreePtr sample_error) = true.
Proof.
  split; [reflexivity|].
  apply (proj1 (is_error_is_eof_by_symbol 65535 0 (SubtreePtr sample_error))).
  reflexivity.
Defined.

Lemma inline_has_no_children_witness :
  0 < ts_subtree_child_count (SubtreePtr sample_parent)
  /\ is_inline (SubtreePtr sample_parent) = false.
Proof.
  split; [reflexivity|].
  apply (proj1 (proj2 inline_has_no_children)). reflexivity.
Defined.

Lemma leaf_accessors_witness :
  Heap.child_count sample_heap = 0
  /\ ts_subtree_leaf_symbol (SubtreePtr sample_heap) = 7
  /\ 0 < Heap.child_count sample_parent
  /\ ts_subtree_leaf_symbol (SubtreePtr sample_parent) = 7
  /\ ts_subtree_leaf_parse_state (SubtreePtr sample_parent) = 41.
Proof.
  split; [reflexivity|].
  split; [apply (proj1 (proj2 leaf_accessors)); reflexivity|].
  split; [reflexivity|].
  apply (proj2 (proj2 leaf_accessors)). reflexivity.
Defined.

Lemma scanner_state_storage_threshold_witness :
  0 <= 24 <= Z.of_nat (List.length sample_bytes)
  /\ stored_inline (ts_external_scanner_state_init sample_bytes 24) = true
  /\ 0 <= 25 <= Z.of_nat (List.length sample_bytes)
  /\ stored_inline (ts_external_scanner_state_init sample_bytes 25) = false.
Proof.
  assert (H24 : 0 <= 24 <= Z.of_nat (List.length sample_bytes))
    by (cbn; lia).
  assert (H25 : 0 <= 25 <= Z.of_nat (List.length sample_bytes))
    by (cbn; lia).
  split; [exact H24|].
  split;
    [exact (proj1 (proj2 (scanner_state_storage_threshold sample_bytes 24 H24)))|].
  split; [exact H25|].
  exact (proj1 (proj2 (scanner_state_storage_threshold sample_bytes 25 H25))).
Defined.

Lemma node_count_of_leaves_and_parents_witness :
  Heap.child_count sample_heap = 0
  /\ ts_subtree_node_count (SubtreePtr sample_heap) = 1
  /\ 0 < Heap.child_count sample_parent
  /\ ts_subtree_node_count (SubtreePtr sample_parent) = 6
  /\ ts_subtree_node_count
       (SubtreePtr
          (ts_subtree_new_node_counts sample_heap
             [SubtreeData sample_inline; SubtreePtr sample_parent;
              SubtreePtr sample_heap]))
     = 1 + (1 + 6 + 1).
Proof.
  destruct node_count_of_leaves_and_parents as (_ & Hleaf & Hparent & Hnew).
  split; [reflexivity|]. split; [apply Hleaf; reflexivity|].
  split; [reflexivity|]. split; [apply Hparent; reflexivity|].
  apply (Hnew sample_heap
              [SubtreeData sample_inline; SubtreePtr sample_parent;
               SubtreePtr sample_heap]).
  discriminate.
Defined.

Lemma inline_size_single_row_witness :
  inline_holds_size sample_size = true
  /\ (exists d, Inline.wf d /\ ts_subtree_size (SubtreeData d) = sample_size)
  /\ inline_holds_padding sample_padding = true
  /\ (exists d,
        Inline.wf d /\ ts_subtree_padding (SubtreeData d) = sample_padding).
Proof.
  destruct inline_size_single_row as (_ & _ & Hsize & _ & Hpadding).
  split; [reflexivity|]. split; [apply Hsize; reflexivity|].
  split; [reflexivity|]. apply Hpadding; reflexivity.
Defined.

(** * Further properties of the header *)

(** ** Writing the [extra] flag *)

(** X1.  After [ts_subtree_set_extra] the [extra] accessor returns the value
    written, in either form, and the form and the result of every other
    accessor of the header are what they were before. *)
Theorem set_extra_read_and_frame :
  forall (length_add : Length -> Length -> Length)
         (missing_cost recovery_cost sym_error sym_end : Z)
         (self : MutableSubtree) (is_extra : bool),
    ts_subtree_extra
      (ts_subtree_from_mut (ts_subtree_set_extra self is_extra))
    = is_extra
    /\ same_results_but_extra length_add missing_cost recovery_cost
         sym_error sym_end
         (ts_subtree_from_mut self)
         (ts_subtree_from_mut (ts_subtree_set_extra self is_extra)).
Proof.
  intros length_add mc rc se sn [d | h] is_extra;
    (split; [reflexivity|]);
    unfold same_results_but_extra;
    repeat (match goal with |- _ /\ _ => split end); reflexivity.
Qed.

(** X2.  Of two successive writes of the [extra] flag the last one wins;
    writing the value the flag already has leaves the subtree as it is; a
    write keeps every member within the width of its type. *)
Theorem set_extra_laws :
  (forall (self : MutableSubtree) (a b : bool),
      ts_subtree_set_extra (ts_subtree_set_extra self a) b
      = ts_subtree_set_extra self b)
  /\ (forall self : MutableSubtree,
         ts_subtree_set_extra self
           (ts_subtree_extra (ts_subtree_from_mut self))
         = self)
  /\ (forall (self : MutableSubtree) (is_extra : bool),
         MutableSubtree_wf self ->
         MutableSubtree_wf (ts_subtree_set_extra self is_extra)).
Proof.
  repeat (match goal with |- _ /\ _ => split end).
  - intros [d | h] a b; reflexivity.
  - intros [d | h]; [destruct d | destruct h]; reflexivity.
  - intros [d | h] is_extra Hwf; exact Hwf.
Qed.

(** ** Repetitions, fragility and the flags only heap records have *)

(** X3.  [ts_subtree_is_repetition] returns 0 or 1, and it returns 1 exactly
    on a heap subtree that is neither named nor visible and whose child
    count is not 0; a repetition is therefore never inline, and its node
    count and first leaf are the ones stored in its record. *)
Theorem is_repetition_characterised :
  forall self : Subtree,
    (ts_subtree_is_repetition self = 0 \/ ts_subtree_is_repetition self = 1)
    /\ (ts_subtree_is_repetition self = 1 <->
        exists h, self = SubtreePtr h
                  /\ Heap.named h = false /\ Heap.visible h = false
                  /\ Heap.child_count h <> 0)
    /\ (ts_subtree_is_repetition self = 1 ->
        is_inline self = false
        /\ ts_subtree_named self = false /\ ts_subtree_visible self = false
        /\ ts_subtree_child_count self <> 0
        /\ exists h, self = SubtreePtr h
                     /\ ts_subtree_node_count self = Heap.node_count h
                     /\ ts_subtree_leaf_symbol self
                        = FirstLeaf.symbol (Heap.first_leaf h)).
Proof.
  intros [d | h]; cbn.
  - split; [now left|]. split.
    + split; [discriminate|]. intros (h & E & _). discriminate.
    + discriminate.
  - destruct (Heap.named h) eqn:En, (Heap.visible h) eqn:Ev,
      (Z.eqb_spec (Heap.child_count h) 0) as [Ec | Ec]; cbn;
      (split; [auto|]); split;
      try (split; [discriminate|];
           intros (h' & E & Hn & Hv & Hc); injection E as <-; congruence);
      try discriminate.
    + split; [|reflexivity]. intros _. exists h. auto.
    + intros _. repeat (split; [auto; fail|]).
      exists h. auto.
Qed.

(** X4.  [ts_subtree_is_fragile] is the disjunction of
    [ts_subtree_fragile_left] and [ts_subtree_fragile_right] in either
    form, and a subtree on which any of the fragility, external-token,
    scanner-state-change or column-dependency accessors returns true is in
    heap form. *)
Theorem heap_only_flags :
  forall self : Subtree,
    ts_subtree_is_fragile self
    = ts_subtree_fragile_left self || ts_subtree_fragile_right self
    /\ (ts_subtree_fragile_left self
        || ts_subtree_fragile_right self
        || ts_subtree_is_fragile self
        || ts_subtree_has_external_tokens self
        || ts_subtree_has_external_scanner_state_change self
        || ts_subtree_depends_on_column self = true ->
        is_inline self = false).
Proof.
  intros [d | h]; cbn; split; try reflexivity. discriminate.
Qed.

(** X5.  When the reserved error symbol does not fit the 8-bit symbol
    member of the inline record, no well-formed inline subtree is an error:
    a well-formed subtree on which [ts_subtree_is_error] holds is in heap
    form. *)
Theorem errors_are_never_inline :
  forall (ts_builtin_sym_error : Z) (self : Subtree),
    255 < ts_builtin_sym_error ->
    Subtree_wf self ->
    (is_inline self = true ->
     ts_subtree_is_error ts_builtin_sym_error self = false)
    /\ (ts_subtree_is_error ts_builtin_sym_error self = true ->
        is_inline self = false).
Proof.
  intros E [d | h] HE Hwf; cbn; split; try discriminate; try reflexivity.
  - intros _. unfold ts_subtree_is_error. cbn.
    destruct Hwf as (Hsym & _). unfold in_range in Hsym. cbn in Hsym.
    apply Z.eqb_neq. lia.
  - unfold ts_subtree_is_error. cbn.
    destruct Hwf as (Hsym & _). unfold in_range in Hsym. cbn in Hsym.
    intros Heq. apply Z.eqb_eq in Heq. lia.
Qed.

(** ** Heap leaves and the union *)

(** X6.  On a heap subtree whose child count is 0 the accessors guarded by
    the child count do not read the union: whatever the union holds, the
    node count is 1, the visible child count, production id, dynamic
    precedence and repetition flag are 0, and the leaf symbol and leaf parse
    state are the subtree's own.  [ts_subtree_repeat_depth] is not guarded:
    it returns the [repeat_depth] member of the union on such a leaf too. *)
Theorem heap_leaf_ignores_union :
  forall (h : SubtreeHeapData)
         (visible_child_count named_child_count node_count
          dynamic_precedence repeat_depth production_id : Z)
         (first_leaf : FirstLeaf.t)
         (external_scanner_state : ExternalScannerState)
         (lookahead_char : Z),
    Heap.child_count h = 0 ->
    let leaf :=
      SubtreePtr
        (with_union h visible_child_count named_child_count node_count
           dynamic_precedence repeat_depth production_id first_leaf
           external_scanner_state lookahead_char) in
    ts_subtree_node_count leaf = 1
    /\ ts_subtree_visible_child_count leaf = 0
    /\ ts_subtree_production_id leaf = 0
    /\ ts_subtree_dynamic_precedence leaf = 0
    /\ ts_subtree_is_repetition leaf = 0
    /\ ts_subtree_leaf_symbol leaf = Heap.symbol h
    /\ ts_subtree_leaf_parse_state leaf = Heap.parse_state h
    /\ ts_subtree_repeat_depth leaf = repeat_depth.
Proof.
  intros h vcc ncc nc dp rd pid fl ess lc Hc leaf. subst leaf.
  unfold ts_subtree_visible_child_count, ts_subtree_production_id.
  cbn. rewrite Hc. cbn. rewrite !andb_false_r.
  repeat (match goal with |- _ /\ _ => split end); reflexivity.
Qed.

(** ** Results within the width of the return type *)

Lemma in_range_widen (w w' z : Z) :
  0 <= w <= w' -> in_range w z -> in_range w' z.
Proof.
  unfold in_range. intros Hw [H0 H1]. split; [exact H0|].
  apply Z.lt_le_trans with (2 ^ w); [exact H1|].
  apply Z.pow_le_mono_r; lia.
Qed.

(** X7.  On a subtree whose members lie within the widths of their types,
    the result of every accessor lies within the width of its return type,
    so no conversion on return changes a value; in particular no parse
    state exceeds [TS_TREE_STATE_NONE]. *)
Theorem accessors_fit_return_types :
  forall (missing_cost recovery_cost : Z) (self : Subtree),
    Subtree_wf self ->
    in_range 16 (ts_subtree_symbol self)
    /\ in_range 16 (ts_subtree_parse_state self)
    /\ ts_subtree_parse_state self <= TS_TREE_STATE_NONE
    /\ in_range 32 (ts_subtree_lookahead_bytes self)
    /\ in_range 16 (ts_subtree_leaf_symbol self)
    /\ in_range 16 (ts_subtree_leaf_parse_state self)
    /\ Length_wf (ts_subtree_padding self)
    /\ Length_wf (ts_subtree_size self)
    /\ in_range 32 (ts_subtree_child_count self)
    /\ in_range 32 (ts_subtree_repeat_depth self)
    /\ in_range 32 (ts_subtree_is_repetition self)
    /\ in_range 32 (ts_subtree_node_count self)
    /\ in_range 32 (ts_subtree_visible_child_count self)
    /\ in_range 32 (ts_subtree_error_cost missing_cost recovery_cost self)
    /\ in_int32 (ts_subtree_dynamic_precedence self)
    /\ in_range 16 (ts_subtree_production_id self).
Proof.
  intros mc rc [d | h] Hwf.
  - destruct (inline_lengths_wf d Hwf) as [Hp Hs].
    destruct Hwf as (Hsym & Hst & Hc & Hr & Hl & Hb & Hsz).
    assert (Hcost : in_range 32 (ts_subtree_error_cost mc rc (SubtreeData d))).
    { unfold ts_subtree_error_cost.
      destruct (ts_subtree_missing (SubtreeData d));
        [apply wrap_in_range; lia | unfold in_range; cbn; lia]. }
    repeat (match goal with |- _ /\ _ => split end);
      try assumption;
      try (cbn; eapply in_range_widen; [|eassumption]; lia);
      try (unfold in_range in *; unfold in_int32, TS_TREE_STATE_NONE,
             USHRT_MAX; cbn in *; lia).
  - destruct Hwf as (Hrc & Hp & Hs & Hl & Hec & Hcc & Hsym & Hst & Hvc
                     & Hnc & Hn & Hdp & Hrd & Hpid & Hfs & Hfp & Hlc).
    assert (Hcost : in_range 32 (ts_subtree_error_cost mc rc (SubtreePtr h))).
    { unfold ts_subtree_error_cost.
      destruct (ts_subtree_missing (SubtreePtr h));
        [apply wrap_in_range; lia | exact Hec]. }
    unfold ts_subtree_visible_child_count, ts_subtree_production_id.
    cbn [ts_subtree_symbol ts_subtree_parse_state SUBTREE_GET
         ts_subtree_lookahead_bytes ts_subtree_leaf_symbol
         ts_subtree_leaf_parse_state ts_subtree_padding ts_subtree_size
         ts_subtree_child_count ts_subtree_repeat_depth
         ts_subtree_is_repetition ts_subtree_node_count
         ts_subtree_dynamic_precedence].
    destruct (Z.eqb_spec (Heap.child_count h) 0) as [E0 | E0];
      destruct (Z.gtb_spec (Heap.child_count h) 0) as [G0 | G0];
      destruct (negb (Heap.named h) && negb (Heap.visible h));
      cbn [andb negb];
      repeat (match goal with |- _ /\ _ => split end);
      try assumption;
      try (eapply in_range_widen; [|eassumption]; lia);
      try (unfold in_range in *; unfold in_int32 in *;
           unfold TS_TREE_STATE_NONE, USHRT_MAX; cbn in *; lia).
Qed.

(** ** Allocation size and the place of the children *)

Lemma alloc_size_small (bits S H c : Z) :
  0 <= S -> 0 <= H -> 0 <= c -> c * S + H < 2 ^ bits ->
  ts_subtree_alloc_size bits S H c = c * S + H.
Proof.
  intros HS HH Hc Hfit. unfold ts_subtree_alloc_size.
  assert (Hprod : 0 <= c * S) by nia.
  rewrite (wrap_id bits (c * S)) by (unfold in_range; lia).
  apply wrap_id. unfold in_range. lia.
Qed.

(** X8.  As long as the size of [child_count] children and a header fits
    [size_t], [ts_subtree_alloc_size] is that size, for this and for every
    smaller child count, and every further child adds exactly
    [sizeof(Subtree)] to it. *)
Theorem alloc_size_exact :
  forall bits sizeof_Subtree sizeof_SubtreeHeapData child_count fewer : Z,
    0 <= sizeof_Subtree -> 0 <= sizeof_SubtreeHeapData ->
    0 <= fewer <= child_count ->
    child_count * sizeof_Subtree + sizeof_SubtreeHeapData < 2 ^ bits ->
    ts_subtree_alloc_size bits sizeof_Subtree sizeof_SubtreeHeapData fewer
    = fewer * sizeof_Subtree + sizeof_SubtreeHeapData
    /\ ts_subtree_alloc_size bits sizeof_Subtree sizeof_SubtreeHeapData
         child_count
       = ts_subtree_alloc_size bits sizeof_Subtree sizeof_SubtreeHeapData
           fewer
         + (child_count - fewer) * sizeof_Subtree.
Proof.
  intros bits S H c c' HS HH Hc Hfit.
  assert (Hle : c' * S <= c * S) by nia.
  rewrite (alloc_size_small bits S H c') by lia.
  rewrite (alloc_size_small bits S H c) by lia.
  split; [reflexivity | ring].
Qed.

(** X9.  The arithmetic of [ts_subtree_alloc_size] is that of [size_t] and
    wraps around: a number of further children whose size is a multiple of
    [2 ^ bits] leaves the result unchanged. *)
Theorem alloc_size_wraps :
  forall bits sizeof_Subtree sizeof_SubtreeHeapData child_count more : Z,
    0 <= bits ->
    (more * sizeof_Subtree) mod 2 ^ bits = 0 ->
    ts_subtree_alloc_size bits sizeof_Subtree sizeof_SubtreeHeapData
      (child_count + more)
    = ts_subtree_alloc_size bits sizeof_Subtree sizeof_SubtreeHeapData
        child_count.
Proof.
  intros bits S H c d Hbits Hmul. unfold ts_subtree_alloc_size, wrap.
  assert (Hpos : 0 < 2 ^ bits) by (apply Z.pow_pos_nonneg; lia).
  f_equal. f_equal.
  replace ((c + d) * S) with (c * S + d * S) by ring.
  rewrite Z.add_mod, Hmul, Z.add_0_r, Z.mod_mod by lia.
  reflexivity.
Qed.

(** X10.  [ts_subtree_children] is [NULL] on an inline subtree.  On a heap
    subtree it is the address [child_count] cells of [sizeof(Subtree)]
    bytes in front of the record: every child cell lies between it and the
    record, the last one ends where the record starts, and, when the size
    fits [size_t], a block of [ts_subtree_alloc_size(child_count)] bytes
    starting there ends exactly where the record ends. *)
Theorem children_precede_header :
  forall bits sizeof_Subtree sizeof_SubtreeHeapData : Z,
    (forall (d : SubtreeInlineData) (ptr : Z),
        ts_subtree_children sizeof_Subtree (SubtreeData d) ptr = NULL)
    /\ (forall (h : SubtreeHeapData) (ptr : Z),
           0 <= sizeof_Subtree -> 0 <= sizeof_SubtreeHeapData ->
           0 <= Heap.child_count h ->
           Heap.child_count h * sizeof_Subtree + sizeof_SubtreeHeapData
           < 2 ^ bits ->
           let children :=
             ts_subtree_children sizeof_Subtree (SubtreePtr h) ptr in
           children + Heap.child_count h * sizeof_Subtree = ptr
           /\ (forall i : Z,
                  0 <= i < Heap.child_count h ->
                  children <= children + i * sizeof_Subtree
                  /\ children + i * sizeof_Subtree + sizeof_Subtree <= ptr)
           /\ children
              + ts_subtree_alloc_size bits sizeof_Subtree
                  sizeof_SubtreeHeapData (Heap.child_count h)
              = ptr + sizeof_SubtreeHeapData).
Proof.
  intros bits S H. split; [reflexivity|].
  intros h ptr HS HH Hc Hfit children. subst children. cbn.
  rewrite alloc_size_small by assumption.
  split; [ring|]. split; [|ring].
  intros i Hi. split; nia.
Qed.

(** ** Instances of the further properties *)

Lemma set_extra_laws_witness :
  MutableSubtree_wf (MutableSubtreeData sample_inline)
  /\ MutableSubtree_wf
       (ts_subtree_set_extra (MutableSubtreeData sample_inline) true).
Proof.
  assert (Hwf : MutableSubtree_wf (MutableSubtreeData sample_inline)).
  { unfold MutableSubtree_wf, Subtree_wf, Inline.wf, in_range. cbn. lia. }
  split; [exact Hwf|].
  exact (proj2 (proj2 set_extra_laws) _ true Hwf).
Defined.

Lemma is_repetition_characterised_witness :
  ts_subtree_is_repetition (SubtreePtr sample_repetition) = 1
  /\ is_inline (SubtreePtr sample_repetition) = false
  /\ ts_subtree_child_count (SubtreePtr sample_repetition) <> 0.
Proof.
  assert (Hrep : ts_subtree_is_repetition (SubtreePtr sample_repetition) = 1)
    by reflexivity.
  destruct (proj2 (proj2 (is_repetition_characterised
                            (SubtreePtr sample_repetition))) Hrep)
    as (Hi & _ & _ & Hc & _).
  split; [exact Hrep|]. split; [exact Hi | exact Hc].
Defined.

Lemma heap_only_flags_witness :
  ts_subtree_depends_on_column (SubtreePtr sample_parent) = true
  /\ is_inline (SubtreePtr sample_parent) = false.
Proof.
  split; [reflexivity|].
  apply (proj2 (heap_only_flags (SubtreePtr sample_parent))). reflexivity.
Defined.

Lemma errors_are_never_inline_witness :
  255 < 65535
  /\ Subtree_wf (SubtreeData sample_inline)
  /\ ts_subtree_is_error 65535 (SubtreeData sample_inline) = false.
Proof.
  assert (Hwf : Subtree_wf (SubtreeData sample_inline)).
  { unfold Subtree_wf, Inline.wf, in_range. cbn. lia. }
  assert (Hsym : 255 < 65535) by lia.
  split; [exact Hsym|]. split; [exact Hwf|].
  apply (proj1 (errors_are_never_inline 65535 (SubtreeData sample_inline)
                  Hsym Hwf)).
  reflexivity.
Defined.

Lemma heap_leaf_ignores_union_witness :
  Heap.child_count sample_heap = 0
  /\ ts_subtree_node_count
       (SubtreePtr
          (with_union sample_heap 9 9 9 9 9 9 (FirstLeaf.Build 9 9)
             (Build_ExternalScannerState (short_data []) 0) 9))
     = 1.
Proof.
  split; [reflexivity|].
  apply (heap_leaf_ignores_union sample_heap 9 9 9 9 9 9
           (FirstLeaf.Build 9 9)
           (Build_ExternalScannerState (short_data []) 0) 9).
  reflexivity.
Defined.

Lemma accessors_fit_return_types_witness :
  Subtree_wf (SubtreePtr sample_parent)
  /\ in_range 16 (ts_subtree_symbol (SubtreePtr sample_parent))
  /\ in_int32 (ts_subtree_dynamic_precedence (SubtreePtr sample_parent)).
Proof.
  assert (Hwf : Subtree_wf (SubtreePtr sample_parent)).
  { unfold Subtree_wf, HeapData_wf, Length_wf, in_range, in_int32.
    cbn. lia. }
  pose proof (accessors_fit_return_types 110 500 _ Hwf) as Hfit.
  split; [exact Hwf|]. split; [apply Hfit|].
  decompose [and] Hfit. assumption.
Defined.

Lemma alloc_size_exact_witness :
  0 <= 8 /\ 0 <= 80 /\ 0 <= 2 <= 3 /\ 3 * 8 + 80 < 2 ^ 64
  /\ ts_subtree_alloc_size 64 8 80 2 = 2 * 8 + 80
  /\ ts_subtree_alloc_size 64 8 80 3
     = ts_subtree_alloc_size 64 8 80 2 + (3 - 2) * 8.
Proof.
  assert (H1 : 0 <= 8) by lia. assert (H2 : 0 <= 80) by lia.
  assert (H3 : 0 <= 2 <= 3) by lia.
  assert (H4 : 3 * 8 + 80 < 2 ^ 64) by (cbn; lia).
  split; [exact H1|]. split; [exact H2|]. split; [exact H3|].
  split; [exact H4|].
  exact (alloc_size_exact 64 8 80 3 2 H1 H2 H3 H4).
Defined.

Lemma alloc_size_wraps_witness :
  0 <= 32 /\ (2 ^ 29 * 8) mod 2 ^ 32 = 0
  /\ ts_subtree_alloc_size 32 8 80 (0 + 2 ^ 29)
     = ts_subtree_alloc_size 32 8 80 0.
Proof.
  assert (H1 : 0 <= 32) by lia.
  assert (H2 : (2 ^ 29 * 8) mod 2 ^ 32 = 0) by reflexivity.
  split; [exact H1|]. split; [exact H2|].
  exact (alloc_size_wraps 32 8 80 0 (2 ^ 29) H1 H2).
Defined.

Lemma children_precede_header_witness :
  0 <= Heap.child_count sample_parent
  /\ Heap.child_count sample_parent * 8 + 80 < 2 ^ 64
  /\ ts_subtree_children 8 (SubtreePtr sample_parent) 4096
     + ts_subtree_alloc_size 64 8 80 (Heap.child_count sample_parent)
     = 4096 + 80.
Proof.
  assert (H1 : 0 <= 8) by lia. assert (H2 : 0 <= 80) by lia.
  assert (H3 : 0 <= Heap.child_count sample_parent) by (cbn; lia).
  assert (H4 : Heap.child_count sample_parent * 8 + 80 < 2 ^ 64)
    by (cbn; lia).
  split; [exact H3|]. split; [exact H4|].
  apply (proj2 (children_precede_header 64 8 80) sample_parent 4096
           H1 H2 H3 H4).
Defined.
